(** * Temperature-controlled relay (ESP-WROOM-32): the control logic of
    [ESP-WROOM-32_wifi-relay-temperature.ino]

    The sketch keeps six global variables, samples a DHT11 sensor in [loop()]
    and serves five HTTP GET routes whose handlers read and write the same
    globals.  The globals are modelled as a record that is passed explicitly;
    every pass of [loop()] and every handler invocation is one step that maps
    a state to a state and the list of effects it performed (pin writes,
    serial lines, the HTTP response, the delay), in program order.

    [setup()] initialises the sensor and the pin, joins the network and
    registers the routes; it writes none of the globals, so the sketch starts
    from their initialisers.  The handlers run on the web server's task and
    [loop()] on the main task: a step of the model is one whole pass or one
    whole handler invocation, and the statements about several steps are
    about interleavings of whole steps.

    The values of C type [float] are IEEE 754 binary32 numbers, modelled with
    the Standard Library's [spec_float] at precision 24 and maximal exponent
    128; [<] is [SFltb], which is false as soon as one side is NaN. *)

From Stdlib Require Import ZArith String Ascii List Bool Lia DecimalString.
From Stdlib Require Import Floats.SpecFloat.
Import ListNotations.

Local Open Scope string_scope.
Local Open Scope Z_scope.

(** ** Floating point *)

Module Float32.

(** [float]: binary32.  [double]: binary64, the type of [atof]'s result and
    of the literal [23.80]. *)
Definition float : Type := spec_float.
Definition double : Type := spec_float.

Definition prec32 : Z := 24.
Definition emax32 : Z := 128.
Definition prec64 : Z := 53.
Definition emax64 : Z := 1024.

(** [isnan(x)] *)
Definition isnan (x : spec_float) : bool :=
  match x with
  | S754_nan => true
  | _ => false
  end.

(** [a < b] on two floats. *)
Definition flt (a b : float) : bool := SFltb a b.

(** [a == b] on two floats (so [+0 == -0], and NaN equals nothing). *)
Definition feq (a b : float) : bool := SFeqb a b.

(** The conversion from [double] to [float] (round to nearest, ties to
    even), as in [float criticalTemp = 23.80;] and in the [return] of
    [String::toFloat]. *)
Definition float_of_double (d : double) : float :=
  match d with
  | S754_finite s m e => binary_round prec32 emax32 s m e
  | _ => d
  end.

(** The double nearest to [(-1)^s * m * 10^k]: what a decimal literal or a
    decimal string denotes.  The quotient of two integers is rounded once,
    by [SFdiv]. *)
Definition double_of_decimal (s : bool) (m : Z) (k : Z) : double :=
  match m with
  | Zpos p =>
      let num := Z.to_pos (Zpos p * 10 ^ Z.max k 0) in
      let den := Z.to_pos (10 ^ Z.max (- k) 0) in
      SFdiv prec64 emax64 (S754_finite s num 0) (S754_finite false den 0)
  | _ => S754_zero s
  end.

(** The double nearest to [(-1)^s * m * 2^k] (hexadecimal notation). *)
Definition double_of_binary (s : bool) (m : Z) (k : Z) : double :=
  match m with
  | Zpos p => binary_round prec64 emax64 s p k
  | _ => S754_zero s
  end.

(** A decimal literal of the sketch, of type [float]. *)
Definition float_lit (s : bool) (m : Z) (k : Z) : float :=
  float_of_double (double_of_decimal s m k).

Definition fzero : float := S754_zero false.
Definition NAN : float := S754_nan.

End Float32.
Import Float32.

Arguments isnan : simpl never.
Arguments flt : simpl never.
Arguments feq : simpl never.

(** ** [String::toFloat]

    The handler of [/setCritical] calls [value().toFloat()] on the parameter.
    [String::toFloat] belongs to the Arduino core, not to the sketch: it
    returns [atof(buffer)] converted to [float].  [atof] is C's [strtod]
    without an end pointer: it skips white space, reads an optional sign and
    then the longest prefix that is a decimal number (digits with an optional
    point, then an optional exponent), a hexadecimal number ([0x], hexadecimal
    digits with an optional point, then an optional binary exponent), [inf] or
    [nan] in any letter case; what follows the prefix is ignored, and the
    result is zero when there is no such prefix. *)

Module Strtod.

Definition code (c : ascii) : Z := Z.of_nat (nat_of_ascii c).

Definition isspace (c : ascii) : bool :=
  (code c =? 32) || ((9 <=? code c) && (code c <=? 13)).

Definition decimal_digit (c : ascii) : option Z :=
  if (48 <=? code c) && (code c <=? 57) then Some (code c - 48) else None.

Definition hexadecimal_digit (c : ascii) : option Z :=
  if (48 <=? code c) && (code c <=? 57) then Some (code c - 48)
  else if (97 <=? code c) && (code c <=? 102) then Some (code c - 87)
  else if (65 <=? code c) && (code c <=? 70) then Some (code c - 55)
  else None.

Definition tolower (c : ascii) : ascii :=
  if (65 <=? code c) && (code c <=? 90)
  then ascii_of_nat (nat_of_ascii c + 32) else c.

Fixpoint skip_space (s : string) : string :=
  match s with
  | String c r => if isspace c then skip_space r else s
  | EmptyString => s
  end.

(** An optional sign: [true] for [-]. *)
Definition scan_sign (s : string) : bool * string :=
  match s with
  | String "-" r => (true, r)
  | String "+" r => (false, r)
  | _ => (false, s)
  end.

(** [p] is a prefix of [s], letter case ignored ([p] is in lower case). *)
Fixpoint prefix_ci (p s : string) : bool :=
  match p, s with
  | EmptyString, _ => true
  | String a p', String b s' => Ascii.eqb a (tolower b) && prefix_ci p' s'
  | String _ _, EmptyString => false
  end.

(** The longest run of digits at the head of [s]: the number read so far
    ([acc] on entry), how many digits were read ([n] on entry), the rest. *)
Fixpoint scan_digits (digit : ascii -> option Z) (base : Z)
    (acc n : Z) (s : string) : Z * Z * string :=
  match s with
  | String c r =>
      match digit c with
      | Some d => scan_digits digit base (acc * base + d) (n + 1) r
      | None => (acc, n, s)
      end
  | EmptyString => (acc, n, s)
  end.

(** Digits with an optional point; at least one digit.  The result is the
    digits read as one integer, the number of digits after the point, and
    the rest. *)
Definition scan_mantissa (digit : ascii -> option Z) (base : Z) (s : string)
    : option (Z * Z * string) :=
  let '(ip, ni, r1) := scan_digits digit base 0 0 s in
  let '(m, nf, r2) :=
    match r1 with
    | String "." r => scan_digits digit base ip 0 r
    | _ => (ip, 0, r1)
    end in
  if ni + nf =? 0 then None else Some (m, nf, r2).

(** An optional exponent: the marker, an optional sign, decimal digits.
    Without a digit there is no exponent. *)
Definition scan_exponent (marker : ascii) (s : string) : Z :=
  match s with
  | String c r =>
      if Ascii.eqb (tolower c) marker then
        let '(neg, r') := scan_sign r in
        let '(x, n, _) := scan_digits decimal_digit 10 0 0 r' in
        if n =? 0 then 0 else if neg then - x else x
      else 0
  | EmptyString => 0
  end.

Variant numeral : Type :=
  | Decimal (m k : Z)        (* m * 10^k *)
  | Hexadecimal (m k : Z)    (* m * 2^k *)
  | Infinity
  | NotANumber.

Definition scan_decimal (s : string) : option numeral :=
  match scan_mantissa decimal_digit 10 s with
  | Some (m, nf, r) => Some (Decimal m (scan_exponent "e" r - nf))
  | None => None
  end.

Definition scan_hexadecimal (s : string) : option numeral :=
  match s with
  | String "0" (String x r) =>
      if Ascii.eqb (tolower x) "x" then
        match scan_mantissa hexadecimal_digit 16 r with
        | Some (m, nf, r') => Some (Hexadecimal m (scan_exponent "p" r' - 4 * nf))
        | None => None
        end
      else None
  | _ => None
  end.

(** The number at the head of [s], after white space and sign.  [0x]
    without a hexadecimal digit is the decimal number [0]. *)
Definition scan_numeral (s : string) : option numeral :=
  if prefix_ci "inf" s then Some Infinity
  else if prefix_ci "nan" s then Some NotANumber
  else
    match scan_hexadecimal s with
    | Some h => Some h
    | None => scan_decimal s
    end.

Definition atof (s : string) : double :=
  let '(neg, r) := scan_sign (skip_space s) in
  match scan_numeral r with
  | Some (Decimal m k) => double_of_decimal neg m k
  | Some (Hexadecimal m k) => double_of_binary neg m k
  | Some Infinity => S754_infinity neg
  | Some NotANumber => S754_nan
  | None => S754_zero false
  end.

(** [String::toFloat] *)
Definition toFloat (s : string) : float := float_of_double (atof s).

End Strtod.
Import Strtod.

(** ** The globals, the effects and the requests *)

(** The sketch's global variables (lines 51-56). *)
Record state : Type := mkState {
  temperature : float;
  relayState : bool;      (* relay status (ON/OFF) *)
  manualMode : bool;      (* false = automatic, true = manual *)
  criticalTemp : float;
  serialOutput : string;  (* the last status line *)
  refreshTime : Z         (* seconds between page refreshes *)
}.

Definition set_temperature (v : float) (s : state) : state :=
  mkState v (relayState s) (manualMode s) (criticalTemp s) (serialOutput s) (refreshTime s).
Definition set_relayState (v : bool) (s : state) : state :=
  mkState (temperature s) v (manualMode s) (criticalTemp s) (serialOutput s) (refreshTime s).
Definition set_manualMode (v : bool) (s : state) : state :=
  mkState (temperature s) (relayState s) v (criticalTemp s) (serialOutput s) (refreshTime s).
Definition set_criticalTemp (v : float) (s : state) : state :=
  mkState (temperature s) (relayState s) (manualMode s) v (serialOutput s) (refreshTime s).
Definition set_serialOutput (v : string) (s : state) : state :=
  mkState (temperature s) (relayState s) (manualMode s) (criticalTemp s) v (refreshTime s).

(** The initialisers of the globals: [temperature = 0.0], [relayState =
    false], [manualMode = false], [criticalTemp = 23.80], an empty
    [serialOutput], [refreshTime = 10]. *)
Definition initial : state :=
  mkState fzero false false (float_lit false 2380 (-2)) EmptyString 10.

Definition DHTPIN : Z := 4.
Definition RELAY_PIN : Z := 2.
Definition HIGH : bool := true.
Definition LOW : bool := false.

(** What a step does to the outside, in program order. *)
Variant event : Type :=
  | digitalWrite (pin : Z) (level : bool)
  | Serial_println (line : string)
  | delay (ms : Z)
  | redirect (url : string)                         (* request->redirect(url) *)
  | send (code : Z) (contentType content : string). (* request->send(...) *)

Definition is_digitalWrite (e : event) : bool :=
  match e with
  | digitalWrite _ _ => true
  | _ => false
  end.

(** The pin writes among the effects of a step. *)
Definition actuations (evs : list event) : list event := filter is_digitalWrite evs.

(** The level of [pin] after the effects [evs], [level] being the one before. *)
Fixpoint pin_after (pin : Z) (level : bool) (evs : list event) : bool :=
  match evs with
  | digitalWrite p l :: evs' => pin_after pin (if p =? pin then l else level) evs'
  | _ :: evs' => pin_after pin level evs'
  | [] => level
  end.

(** The response a handler gave, if any: the last [redirect] or [send]. *)
Fixpoint response (evs : list event) : option event :=
  match evs with
  | [] => None
  | e :: evs' =>
      match response evs' with
      | Some r => Some r
      | None =>
          match e with
          | redirect _ | send _ _ _ => Some e
          | _ => None
          end
      end
  end.

(** A request as the handlers read it: its query parameters, in order. *)
Record AsyncWebServerRequest : Type := mkRequest {
  params : list (string * string)
}.

Definition getParam (request : AsyncWebServerRequest) (name : string)
    : option (string * string) :=
  find (fun p => String.eqb (fst p) name) (params request).

Definition hasParam (request : AsyncWebServerRequest) (name : string) : bool :=
  match getParam request name with
  | Some _ => true
  | None => false
  end.

Definition value (p : string * string) : string := snd p.

(** [String(n)] for an [int]: its decimal digits. *)
Definition String_int (n : Z) : string := DecimalString.NilZero.string_of_int (Z.to_int n).

(** The steps of the running sketch: a pass of [loop()] with what the
    sensor returned, or a request served by one of the five routes. *)
Variant op : Type :=
  | Tick (reading : float)
  | Root (request : AsyncWebServerRequest)
  | ToggleMode (request : AsyncWebServerRequest)
  | RelayOn (request : AsyncWebServerRequest)
  | RelayOff (request : AsyncWebServerRequest)
  | SetCritical (request : AsyncWebServerRequest).

(** ** Definitions used by the statements *)

(** A request with the single parameter [temp=v], and one without any. *)
Definition with_temp (v : string) : AsyncWebServerRequest := mkRequest [("temp", v)].
Definition no_params : AsyncWebServerRequest := mkRequest [].

(** The relation between output and threshold that the automatic policy
    aims at: in automatic mode, with a valid temperature, the relay is on
    exactly when the temperature is below the critical one. *)
Definition control_invariant (s : state) : Prop :=
  manualMode s = false -> isnan (temperature s) = false ->
  (relayState s = true <-> flt (temperature s) (criticalTemp s) = true).

(** The steps that neither move the threshold nor enter automatic mode:
    every step but a [/setCritical] that carries [temp] and a [/toggleMode]
    that leaves manual mode. *)
Definition keeps_policy (o : op) (s : state) : bool :=
  match o with
  | Tick _ | Root _ | RelayOn _ | RelayOff _ => true
  | SetCritical request => negb (hasParam request "temp")
  | ToggleMode _ => negb (manualMode s)
  end.

(** What the sensor returned in the last pass of [loop()] among [ops]. *)
Fixpoint last_reading (ops : list op) : option float :=
  match ops with
  | [] => None
  | o :: ops' =>
      match last_reading ops' with
      | Some r => Some r
      | None =>
          match o with
          | Tick r => Some r
          | _ => None
          end
      end
  end.

(** Where [atof] looks for a number in [v]: after the white space and the
    optional sign. *)
Definition after_sign (v : string) : string := snd (scan_sign (skip_space v)).

Definition is_digit (c : ascii) : bool :=
  match decimal_digit c with
  | Some _ => true
  | None => false
  end.

(** [r] starts with a digit, or with a point and a digit. *)
Definition starts_with_digits (r : string) : bool :=
  match r with
  | String c r' =>
      is_digit c
      || (Ascii.eqb c "."
          && match r' with
             | String c' _ => is_digit c'
             | EmptyString => false
             end)
  | EmptyString => false
  end.

(** [r] starts like a number: with digits, or with inf or nan in any letter
    case.  (A hexadecimal number starts with the digit 0.) *)
Definition starts_number (r : string) : bool :=
  starts_with_digits r || prefix_ci "inf" r || prefix_ci "nan" r.

(** A text with no number at its head: after white space and an optional
    sign it does not start like a number.  Such are abc, -abc, a blank and
    abc, a lone point, and the empty text; 12abc is not. *)
Definition no_number (v : string) : bool := negb (starts_number (after_sign v)).

(** The line that reports a failed read (line 188). *)
Definition error_message : string := "Error reading temperature".

(** A rendering of floats to run the model on examples: the value rounded to
    two decimals, which is what [String(float)] prints by default. *)
Definition two_decimals (x : float) : string :=
  match x with
  | S754_nan => "nan"
  | S754_infinity s => if s then "-inf" else "inf"
  | S754_zero _ => "0.00"
  | S754_finite s m e =>
      let n := (Z.shiftl (200 * Zpos m) e + 1) / 2 in
      (if s then "-" else EmptyString)
      ++ String_int (n / 100) ++ "." ++ String_int (n mod 100 / 10) ++ String_int (n mod 10)
  end.

(** ** [setup()]

    [setup()] (lines 58-179) opens the serial port, starts the sensor, makes
    the relay pin an output and drives it low, then joins the network and
    polls [WiFi.status()] once a second until it reports [WL_CONNECTED]; only
    then does it print the address, register the five routes and start the
    server.  The network name and password come from a header that is not
    part of the sketch, and the address from the network: they are arguments,
    as are the successive results of [WiFi.status()]. *)

(** The values of [WiFi.status()] (the WiFi library's [wl_status_t]). *)
Variant wl_status_t : Type :=
  | WL_NO_SHIELD
  | WL_IDLE_STATUS
  | WL_NO_SSID_AVAIL
  | WL_SCAN_COMPLETED
  | WL_CONNECTED
  | WL_CONNECT_FAILED
  | WL_CONNECTION_LOST
  | WL_DISCONNECTED.

(** [status != WL_CONNECTED], the test of the waiting loop (line 72). *)
Definition not_connected (status : wl_status_t) : bool :=
  match status with
  | WL_CONNECTED => false
  | _ => true
  end.

Variant pin_mode : Type := INPUT | OUTPUT.

(** What [setup()] does to the outside: the effects a step can have, and the
    initialisations that only [setup()] performs. *)
Variant boot_event : Type :=
  | Serial_begin (baud : Z)
  | dht_begin
  | pinMode (pin : Z) (mode : pin_mode)
  | WiFi_begin (ssid password : string)
  | server_on (uri : string)      (* server.on(uri, HTTP_GET, handler) *)
  | server_begin
  | effect (e : event).

(** The waiting loop (lines 72-75) on the successive results of
    [WiFi.status()]: what it did, and whether it has left the loop.  When the
    results run out before [WL_CONNECTED], it is still waiting. *)
Fixpoint connecting (statuses : list wl_status_t) : list boot_event * bool :=
  match statuses with
  | [] => ([], false)
  | status :: statuses' =>
      if not_connected status then
        let '(evs, connected) := connecting statuses' in
        (effect (delay 1000) :: effect (Serial_println "Still connecting...") :: evs,
         connected)
      else ([], true)
  end.

(** [setup()]: what it did, and whether it has returned. *)
Definition setup (WIFI_SSID WIFI_PASSWORD localIP : string)
    (statuses : list wl_status_t) : list boot_event * bool :=
  let before :=
    [Serial_begin 9600;
     dht_begin;
     pinMode RELAY_PIN OUTPUT;
     effect (digitalWrite RELAY_PIN LOW);
     WiFi_begin WIFI_SSID WIFI_PASSWORD;
     effect (Serial_println "Connecting to WiFi...")] in
  let '(waiting, connected) := connecting statuses in
  if connected then
    ((before ++ waiting
      ++ [effect (Serial_println "Connected to WiFi");
          effect (Serial_println "IP Address: ");
          effect (Serial_println localIP);
          server_on "/";
          server_on "/toggleMode";
          server_on "/relayOn";
          server_on "/relayOff";
          server_on "/setCritical";
          server_begin])%list,
     true)
  else ((before ++ waiting)%list, false).

(** The effects among what [setup()] did. *)
Fixpoint effects (evs : list boot_event) : list event :=
  match evs with
  | effect e :: evs' => e :: effects evs'
  | _ :: evs' => effects evs'
  | [] => []
  end.

(** What concerns the server among what [setup()] did. *)
Definition is_server_event (b : boot_event) : bool :=
  match b with
  | server_on _ | server_begin => true
  | _ => false
  end.

(** How many results of [WiFi.status()] come before the first
    [WL_CONNECTED]. *)
Fixpoint polls_before_connected (statuses : list wl_status_t) : nat :=
  match statuses with
  | [] => O
  | status :: statuses' =>
      if not_connected status then S (polls_before_connected statuses') else O
  end.

(** ** Definitions used by the statements about runs *)

Definition is_Tick (o : op) : bool :=
  match o with
  | Tick _ => true
  | _ => false
  end.

Definition is_Root (o : op) : bool :=
  match o with
  | Root _ => true
  | _ => false
  end.

Definition is_ToggleMode (o : op) : bool :=
  match o with
  | ToggleMode _ => true
  | _ => false
  end.

Definition is_response (e : event) : bool :=
  match e with
  | redirect _ | send _ _ _ => true
  | _ => false
  end.

Definition is_delay (e : event) : bool :=
  match e with
  | delay _ => true
  | _ => false
  end.

(** [e] writes no pin but the relay's. *)
Definition relay_pin_only (e : event) : Prop :=
  match e with
  | digitalWrite pin _ => pin = RELAY_PIN
  | _ => True
  end.

(** Whether [ops] holds an odd number of [/toggleMode] requests. *)
Fixpoint toggled (ops : list op) : bool :=
  match ops with
  | [] => false
  | o :: ops' => xorb (is_ToggleMode o) (toggled ops')
  end.

(** The text of [temp] in the last [/setCritical] request of [ops] that
    carries one. *)
Fixpoint last_setpoint (ops : list op) : option string :=
  match ops with
  | [] => None
  | o :: ops' =>
      match last_setpoint ops' with
      | Some v => Some v
      | None =>
          match o with
          | SetCritical request => option_map value (getParam request "temp")
          | _ => None
          end
      end
  end.

(** What the last [/relayOn] or [/relayOff] request of [ops] asked for. *)
Fixpoint last_command (ops : list op) : option bool :=
  match ops with
  | [] => None
  | o :: ops' =>
      match last_command ops' with
      | Some b => Some b
      | None =>
          match o with
          | RelayOn _ => Some true
          | RelayOff _ => Some false
          | _ => None
          end
      end
  end.

(** Two states that differ at most in the status line. *)
Definition same_but_status (s s' : state) : Prop :=
  set_serialOutput EmptyString s = set_serialOutput EmptyString s'.

(** The last reading of [readings] that is not NaN. *)
Fixpoint last_valid (readings : list float) : option float :=
  match readings with
  | [] => None
  | r :: readings' =>
      match last_valid readings' with
      | Some r' => Some r'
      | None => if isnan r then None else Some r
      end
  end.

(** ** The handlers and [loop()] *)

Section Firmware.

(** [String(x)] for a [float]: the Arduino core's rendering with two
    decimals.  It belongs to the core, not to the sketch, and nothing below
    depends on the digits it prints. *)
Variable String_float : float -> string.

(** The page of route [/] (lines 83-134). *)
Definition html (s : state) : string :=
  "<html><head>"
  ++ "<meta charset='UTF-8'>"
  ++ ("<meta http-equiv='refresh' content='" ++ String_int (refreshTime s) ++ "'>")
  ++ "<style>"
  ++ "body { font-family: Arial, sans-serif; background-color: #f0f0f0; text-align: center; padding-top: 50px; }"
  ++ "h1 { font-size: 62px; color: #333; }"
  ++ ".temperature { font-size: 94px; color: #FF5733; }"
  ++ (".relay-status { font-size: 31px; color: "
      ++ (if relayState s then "#28a745" else "#dc3545") ++ "; }")
  ++ ".serial-output { font-size: 18px; color: #000; padding-top: 20px; }"
  ++ "button { padding: 15px 40px; font-size: 20px; margin: 10px; }"
  ++ ".on-button { background-color: #28a745; color: white; }"
  ++ ".off-button { background-color: #dc3545; color: white; }"
  ++ "input[type='number'] { font-size: 30px; padding: 10px; width: 120px; }"
  ++ "</style>"
  ++ "<script>"
  ++ ("var countdown=" ++ String_int (refreshTime s) ++ ";")
  ++ "setInterval(function() {"
  ++ "if(countdown > 0) { countdown--; document.getElementById('countdown').innerHTML = countdown; }"
  ++ "}, 1000);"
  ++ "</script>"
  ++ "</head><body>"
  ++ "<h1>Current Temperature</h1>"
  ++ ("<div class='temperature'>" ++ String_float (temperature s) ++ " °C</div>")
  ++ ("<div class='relay-status'>Relay is "
      ++ (if relayState s then "ON" else "OFF") ++ "</div>")
  ++ ("<div style='padding-top:20px;'><strong>Automatic refresh in: <span id='countdown'>"
      ++ String_int (refreshTime s) ++ "</span> seconds</strong></div>")
  ++ "<div style='padding-top:20px;'><strong>Mode:</strong> "
  ++ "<form action='/toggleMode' method='GET'>"
  ++ ("<button type='submit'>"
      ++ (if manualMode s then "Switch to Automatic" else "Switch to Manual")
      ++ "</button>")
  ++ "</form></div>"
  ++ (if manualMode s then
        "<div style='padding-top:20px;'><strong>Manual Relay Control:</strong> "
        ++ "<form action='/relayOn' method='GET'><button class='on-button' type='submit'>ON</button></form>"
        ++ "<form action='/relayOff' method='GET'><button class='off-button' type='submit'>OFF</button></form></div>"
      else EmptyString)
  ++ ("<div style='padding-top:20px;'><strong>Critical Temperature: </strong>"
      ++ String_float (criticalTemp s) ++ " °C</div>")
  ++ "<form action='/setCritical' method='GET'>"
  ++ ("<input type='number' step='0.1' name='temp' value='"
      ++ String_float (criticalTemp s) ++ "'>")
  ++ "<button type='submit'>Set Critical Temperature</button>"
  ++ "</form>"
  ++ "</body></html>".

(** Route [/] (lines 82-136). *)
Definition on_root (request : AsyncWebServerRequest) (s : state)
    : state * list event :=
  (s, [send 200 "text/html" (html s)]).

(** Route [/toggleMode] (lines 139-143). *)
Definition on_toggleMode (request : AsyncWebServerRequest) (s : state)
    : state * list event :=
  let s := set_manualMode (negb (manualMode s)) s in
  (s, [Serial_println
         ("Switched to " ++ (if manualMode s then "Manual" else "Automatic") ++ " Mode");
       redirect "/"]).

(** Route [/relayOn] (lines 146-154). *)
Definition on_relayOn (request : AsyncWebServerRequest) (s : state)
    : state * list event :=
  if manualMode s then
    let s := set_relayState true s in
    let s := set_serialOutput "Manual mode: Relay is ON" s in
    (s, [digitalWrite RELAY_PIN HIGH;
         Serial_println "Relay turned ON (Manual)";
         redirect "/"])
  else (s, [redirect "/"]).

(** Route [/relayOff] (lines 157-165). *)
Definition on_relayOff (request : AsyncWebServerRequest) (s : state)
    : state * list event :=
  if manualMode s then
    let s := set_relayState false s in
    let s := set_serialOutput "Manual mode: Relay is OFF" s in
    (s, [digitalWrite RELAY_PIN LOW;
         Serial_println "Relay turned OFF (Manual)";
         redirect "/"])
  else (s, [redirect "/"]).

(** Route [/setCritical] (lines 168-175).  [getParam] is read only under
    [hasParam], where it finds the parameter. *)
Definition on_setCritical (request : AsyncWebServerRequest) (s : state)
    : state * list event :=
  if hasParam request "temp" then
    match getParam request "temp" with
    | Some p =>
        let s := set_criticalTemp (toFloat (value p)) s in
        let line :=
          "Critical Temperature set to: " ++ String_float (criticalTemp s) ++ " °C" in
        let s := set_serialOutput line s in
        (s, [Serial_println line; redirect "/"])
    | None => (s, [redirect "/"])
    end
  else (s, [redirect "/"]).

(** One pass of [loop()] (lines 181-210), [reading] being what
    [dht.readTemperature()] returned: a temperature, or NaN when the read
    failed. *)
Definition loop (reading : float) (s : state) : state * list event :=
  let s := set_temperature reading s in
  if negb (manualMode s) then
    if isnan (temperature s) then
      let s := set_serialOutput "Error reading temperature" s in
      (s, [Serial_println "Error reading temperature"; delay 2000])
    else
      let tempString := "Temperature: " ++ String_float (temperature s) ++ " °C" in
      let '(s, evs) :=
        if flt (temperature s) (criticalTemp s) then
          (set_relayState true s,
           [Serial_println "Relay is ON"; digitalWrite RELAY_PIN HIGH])
        else
          (set_relayState false s,
           [Serial_println "Relay is OFF"; digitalWrite RELAY_PIN LOW]) in
      let s :=
        set_serialOutput
          (tempString ++ "<br>Relay is " ++ (if relayState s then "ON" else "OFF")) s in
      (s, Serial_println tempString :: evs ++ [delay 2000])
  else (s, [delay 2000]).

(** One step of the running sketch. *)
Definition step (o : op) (s : state) : state * list event :=
  match o with
  | Tick reading => loop reading s
  | Root request => on_root request s
  | ToggleMode request => on_toggleMode request s
  | RelayOn request => on_relayOn request s
  | RelayOff request => on_relayOff request s
  | SetCritical request => on_setCritical request s
  end.

(** The state after the steps [ops], from [s]. *)
Fixpoint run (ops : list op) (s : state) : state :=
  match ops with
  | [] => s
  | o :: ops' => run ops' (fst (step o s))
  end.

(** The states the sketch can be in: after any steps from the initial one. *)
Inductive reachable : state -> Prop :=
  | reachable_initial : reachable initial
  | reachable_step o s : reachable s -> reachable (fst (step o s)).

(** All the effects of the steps [ops], from [s], in order. *)
Fixpoint trace (ops : list op) (s : state) : list event :=
  match ops with
  | [] => []
  | o :: ops' => (snd (step o s) ++ trace ops' (fst (step o s)))%list
  end.

(** A pass of [loop()] in two parts, for a request that is served in the
    middle of it.  In automatic mode with a valid reading the pass is cut
    right after the assignment to [relayState] (line 195 or 199): what was
    done up to there, the [tempString] built at line 190 and the branch
    taken.  On the other paths nothing is assigned to [relayState] and the
    pass is given whole. *)
Variant pass_cut : Type :=
  | Whole (result : state * list event)
  | Cut (s : state) (evs : list event) (tempString : string) (on : bool).

(** Lines 183-195, or 183-199. *)
Definition loop_to_relayState (reading : float) (s : state) : pass_cut :=
  let s := set_temperature reading s in
  if negb (manualMode s) then
    if isnan (temperature s) then
      let s := set_serialOutput "Error reading temperature" s in
      Whole (s, [Serial_println "Error reading temperature"; delay 2000])
    else
      let tempString := "Temperature: " ++ String_float (temperature s) ++ " °C" in
      if flt (temperature s) (criticalTemp s) then
        Cut (set_relayState true s) [Serial_println tempString] tempString true
      else
        Cut (set_relayState false s) [Serial_println tempString] tempString false
  else Whole (s, [delay 2000]).

(** Lines 196-209, or 200-209: the rest of the branch, then the status line,
    which reads [relayState] again, and the delay. *)
Definition loop_from_relayState (tempString : string) (on : bool) (s : state)
    : state * list event :=
  let evs :=
    if on then [Serial_println "Relay is ON"; digitalWrite RELAY_PIN HIGH]
    else [Serial_println "Relay is OFF"; digitalWrite RELAY_PIN LOW] in
  let s :=
    set_serialOutput
      (tempString ++ "<br>Relay is " ++ (if relayState s then "ON" else "OFF")) s in
  (s, (evs ++ [delay 2000])%list).

(** * Properties *)

(** ** Comparison of floats *)

Lemma flt_irrefl (x : float) : flt x x = false.
Proof.
  unfold flt, SFltb.
  destruct x as [s | s | | s m e]; simpl; try reflexivity.
  - destruct s; reflexivity.
  - destruct s; rewrite Z.compare_refl;
      change (Pos.compare_cont Eq m m) with (Pos.compare m m);
      rewrite Pos.compare_refl; reflexivity.
Qed.

Lemma feq_not_flt (a b : float) : feq a b = true -> flt a b = false.
Proof.
  unfold feq, flt, SFeqb, SFltb.
  destruct (SFcompare a b) as [[ | | ] | ]; intros H; try reflexivity; discriminate H.
Qed.

Lemma isnan_true (x : float) : isnan x = true -> x = NAN.
Proof. destruct x; simpl; intros H; try discriminate H; reflexivity. Qed.

(** ** The parser on the texts the statements mention *)

Example toFloat_18_5 : toFloat "18.5" = S754_finite false 9699328 (-19).
Proof. reflexivity. Qed.

Example toFloat_abc : toFloat "abc" = fzero.
Proof. reflexivity. Qed.

Example criticalTemp_initial : criticalTemp initial = S754_finite false 12478054 (-19).
Proof. reflexivity. Qed.

(** The digits read never decrease the count. *)
Lemma scan_digits_count (digit : ascii -> option Z) (base : Z) (s : string) (acc n : Z) :
  n <= snd (fst (scan_digits digit base acc n s)).
Proof.
  revert acc n; induction s as [ | c r IH]; intros acc n; simpl; [apply Z.le_refl | ].
  destruct (digit c) as [d | ]; simpl; [ | apply Z.le_refl].
  apply Z.le_trans with (n + 1); [ | apply IH].
  apply Z.le_succ_diag_r.
Qed.

(** The case of the point, in [scan_mantissa]. *)
Lemma match_point (A : Type) (c : ascii) (r : string) (f : string -> A) (y : A) :
  match String c r with
  | String "." r0 => f r0
  | _ => y
  end = if Ascii.eqb c "." then f r else y.
Proof.
  destruct c as [b0 b1 b2 b3 b4 b5 b6 b7].
  destruct b0, b1, b2, b3, b4, b5, b6, b7; reflexivity.
Qed.

(** The digits after the point are counted from zero. *)
Lemma fraction_count (ip : Z) (r1 : string) :
  0 <= snd (fst (match r1 with
                 | String "." r => scan_digits decimal_digit 10 ip 0 r
                 | _ => (ip, 0, r1)
                 end)).
Proof.
  destruct r1 as [ | c r]; [apply Z.le_refl | ].
  rewrite (match_point _ c r (fun r0 => scan_digits decimal_digit 10 ip 0 r0)).
  destruct (Ascii.eqb c "."); [apply scan_digits_count | apply Z.le_refl].
Qed.

(** [scan_mantissa] finds decimal digits exactly in the texts that start
    with a digit, or with a point and a digit. *)
Lemma scan_mantissa_none (s : string) :
  scan_mantissa decimal_digit 10 s = None <-> starts_with_digits s = false.
Proof.
  destruct s as [ | c r]; [split; reflexivity | ].
  unfold scan_mantissa, starts_with_digits, is_digit.
  simpl scan_digits.
  destruct (decimal_digit c) as [d | ] eqn:Hd.
  - (* a digit first: at least one digit is counted *)
    pose proof (scan_digits_count decimal_digit 10 r d 1) as Hni.
    destruct (scan_digits decimal_digit 10 d 1 r) as [[ip ni] r1].
    pose proof (fraction_count ip r1) as Hnf.
    destruct (match r1 with
              | String "." r0 => scan_digits decimal_digit 10 ip 0 r0
              | _ => (ip, 0, r1)
              end) as [[m nf] r2].
    simpl in Hni, Hnf.
    assert (Hpos : (ni + nf =? 0) = false).
    { apply Z.eqb_neq. lia. }
    rewrite Hpos. split; intros H; discriminate H.
  - (* no digit first: a point and a digit, or nothing *)
    rewrite (match_point _ c r (fun r0 => scan_digits decimal_digit 10 0 0 r0)).
    destruct (Ascii.eqb c "."); simpl; [ | split; reflexivity].
    destruct r as [ | c' r']; simpl; [split; reflexivity | ].
    destruct (decimal_digit c') as [d' | ] eqn:Hd'; [ | split; reflexivity].
    pose proof (scan_digits_count decimal_digit 10 r' d' 1) as Hnf.
    destruct (scan_digits decimal_digit 10 d' 1 r') as [[m nf] r2].
    simpl in Hnf.
    assert (Hpos : (nf =? 0) = false).
    { apply Z.eqb_neq. lia. }
    rewrite Hpos. split; intros H; discriminate H.
Qed.

(** A hexadecimal number starts with the digit 0. *)
Lemma scan_hexadecimal_some (r : string) (h : numeral) :
  scan_hexadecimal r = Some h -> starts_with_digits r = true.
Proof.
  destruct r as [ | c r']; [intros H; discriminate H | ].
  destruct c as [b0 b1 b2 b3 b4 b5 b6 b7].
  destruct b0, b1, b2, b3, b4, b5, b6, b7;
    intros H; first [discriminate H | reflexivity].
Qed.

(** [atof] converts nothing exactly when the text, after white space and
    sign, does not start like a number. *)
Lemma scan_numeral_none (r : string) :
  scan_numeral r = None <-> starts_number r = false.
Proof.
  unfold scan_numeral, starts_number.
  destruct (prefix_ci "inf" r).
  { rewrite orb_true_r. split; intros H; discriminate H. }
  destruct (prefix_ci "nan" r).
  { rewrite orb_true_r. split; intros H; discriminate H. }
  rewrite !orb_false_r.
  destruct (scan_hexadecimal r) as [h | ] eqn:Hhex.
  - rewrite (scan_hexadecimal_some r h Hhex). split; intros H; discriminate H.
  - unfold scan_decimal. rewrite <- scan_mantissa_none.
    destruct (scan_mantissa decimal_digit 10 r) as [[[m nf] r2] | ];
      split; intros H; first [discriminate H | reflexivity].
Qed.


Lemma no_number_false (v : string) :
  no_number v = false -> exists n, scan_numeral (after_sign v) = Some n.
Proof.
  unfold no_number. intros H. apply negb_false_iff in H.
  destruct (scan_numeral (after_sign v)) as [n | ] eqn:Hn; [exists n; reflexivity | ].
  apply scan_numeral_none in Hn. rewrite Hn in H. discriminate H.
Qed.

(** ** The request parameters *)

Lemma hasParam_getParam (request : AsyncWebServerRequest) (name : string) :
  hasParam request name = true <-> exists p, getParam request name = Some p.
Proof.
  unfold hasParam. destruct (getParam request name) as [p | ]; split.
  - intros _. exists p. reflexivity.
  - reflexivity.
  - intros H. discriminate H.
  - intros [p H]. discriminate H.
Qed.

Lemma getParam_with_temp (v : string) : getParam (with_temp v) "temp" = Some ("temp", v).
Proof. reflexivity. Qed.

(** ** One pass of [loop()] *)

(** The state after a pass, by the three paths through [loop()]. *)
Lemma loop_state (r : float) (s : state) :
  fst (loop r s) =
    if manualMode s then set_temperature r s
    else if isnan r then set_serialOutput error_message (set_temperature r s)
    else
      mkState r (flt r (criticalTemp s)) false (criticalTemp s)
        (("Temperature: " ++ String_float r ++ " °C")
           ++ "<br>Relay is " ++ (if flt r (criticalTemp s) then "ON" else "OFF"))
        (refreshTime s).
Proof.
  unfold loop; destruct s as [t rs [ | ] c so rt]; simpl; [reflexivity | ].
  destruct (isnan r); [reflexivity | ].
  destruct (flt r c); reflexivity.
Qed.

(** The effects of a pass, by the same paths. *)
Lemma loop_events (r : float) (s : state) :
  snd (loop r s) =
    if manualMode s then [delay 2000]
    else if isnan r then [Serial_println error_message; delay 2000]
    else
      [Serial_println ("Temperature: " ++ String_float r ++ " °C");
       Serial_println (if flt r (criticalTemp s) then "Relay is ON" else "Relay is OFF");
       digitalWrite RELAY_PIN (flt r (criticalTemp s));
       delay 2000].
Proof.
  unfold loop; destruct s as [t rs [ | ] c so rt]; simpl; [reflexivity | ].
  destruct (isnan r); [reflexivity | ].
  destruct (flt r c); reflexivity.
Qed.

(** In automatic mode, with a valid sample, the relay pin is written with the
    value [relayState] takes. *)
Lemma loop_pin_follows_relayState (t : float) (s : state) (level : bool) :
  manualMode s = false ->
  isnan t = false ->
  pin_after RELAY_PIN level (snd (loop t s)) = relayState (fst (loop t s)).
Proof.
  intros Hauto Hvalid. rewrite loop_events, loop_state, Hauto, Hvalid. reflexivity.
Qed.

(** The pass after a failed read behaves as if the failed pass had not run:
    what the failed pass wrote, the next one overwrites. *)
Lemma loop_after_failed_read (r r' : float) (s : state) :
  isnan r = true -> loop r' (fst (loop r s)) = loop r' s.
Proof.
  intros Hr. apply injective_projections.
  - rewrite !loop_state, Hr. destruct s as [t rs [ | ] c so rt]; simpl; [reflexivity | ].
    destruct (isnan r'); reflexivity.
  - rewrite !loop_events, loop_state, Hr.
    destruct s as [t rs [ | ] c so rt]; simpl; [reflexivity | ].
    destruct (isnan r'); reflexivity.
Qed.

(** C1. In automatic mode, a pass of [loop()] whose sample [t] is valid
    (not NaN) leaves [relayState] equal to [t < criticalTemp], for every
    sample and every threshold; the comparison is strict, so a sample equal
    to the threshold leaves the relay off. *)
Theorem loop_automatic_threshold (s : state) (t : float) :
  manualMode s = false ->
  isnan t = false ->
  relayState (fst (loop t s)) = flt t (criticalTemp s)
  /\ (feq t (criticalTemp s) = true -> relayState (fst (loop t s)) = false)
  /\ (t = criticalTemp s -> relayState (fst (loop t s)) = false).
Proof.
  intros Hauto Hvalid.
  assert (Hrelay : relayState (fst (loop t s)) = flt t (criticalTemp s)).
  { rewrite loop_state, Hauto, Hvalid. reflexivity. }
  split; [exact Hrelay | split].
  - intros Heq. rewrite Hrelay. apply feq_not_flt, Heq.
  - intros Heq. rewrite Hrelay, <- Heq. apply flt_irrefl.
Qed.

(** C10. A pass of [loop()] never modifies [manualMode] or [criticalTemp],
    whatever the state and whatever the sensor returned. *)
Theorem loop_keeps_mode_and_threshold (s : state) (r : float) :
  manualMode (fst (loop r s)) = manualMode s
  /\ criticalTemp (fst (loop r s)) = criticalTemp s.
Proof.
  rewrite loop_state.
  destruct (manualMode s) eqn:Hmode; [split; [exact Hmode | reflexivity] | ].
  destruct (isnan r); split; simpl; solve [exact Hmode | reflexivity].
Qed.

(** C4 (as the code has it). In manual mode a pass of [loop()] leaves
    [relayState] unchanged, whatever the sensor returned; the one global it
    changes is [temperature], which takes the sensor's result, a valid
    reading or NaN alike; the status line is not changed, and the pass
    writes no pin. *)
Theorem loop_manual (s : state) (r : float) :
  manualMode s = true ->
  relayState (fst (loop r s)) = relayState s
  /\ fst (loop r s) = set_temperature r s
  /\ temperature (fst (loop r s)) = r
  /\ serialOutput (fst (loop r s)) = serialOutput s
  /\ snd (loop r s) = [delay 2000].
Proof.
  intros Hmanual. rewrite loop_state, loop_events, Hmanual.
  repeat split; reflexivity.
Qed.

(** C5 (as the code has it). A pass of [loop()] whose read failed (NaN)
    sets the status line to the error message in automatic mode and leaves
    it as it was in manual mode; in both modes [relayState], [manualMode] and
    [criticalTemp] are unchanged and no pin is written, and [temperature]
    takes the NaN.  The failure is not fatal: the pass returns, and the next
    pass reads the sensor again and ends as if the failed one had not run. *)
Theorem loop_failed_read (s : state) (r r' : float) :
  isnan r = true ->
  serialOutput (fst (loop r s)) = (if manualMode s then serialOutput s else error_message)
  /\ relayState (fst (loop r s)) = relayState s
  /\ manualMode (fst (loop r s)) = manualMode s
  /\ criticalTemp (fst (loop r s)) = criticalTemp s
  /\ refreshTime (fst (loop r s)) = refreshTime s
  /\ temperature (fst (loop r s)) = r
  /\ actuations (snd (loop r s)) = []
  /\ loop r' (fst (loop r s)) = loop r' s.
Proof.
  intros Hr.
  repeat match goal with |- _ /\ _ => split end;
    try (apply loop_after_failed_read; exact Hr);
    rewrite ?loop_state, ?loop_events, Hr;
    destruct s as [t rs [ | ] c so rt]; reflexivity.
Qed.

(** ** The handlers *)

(** C6. [/toggleMode] is its own inverse: two calls give back the state
    they started from, so [manualMode] has its original value; one call
    negates [manualMode] and changes no other global. *)
Theorem toggleMode_involutive (request request' : AsyncWebServerRequest) (s : state) :
  let s1 := fst (on_toggleMode request s) in
  let s2 := fst (on_toggleMode request' s1) in
  manualMode s2 = manualMode s
  /\ s2 = s
  /\ manualMode s1 = negb (manualMode s)
  /\ relayState s1 = relayState s
  /\ temperature s1 = temperature s
  /\ criticalTemp s1 = criticalTemp s
  /\ serialOutput s1 = serialOutput s
  /\ refreshTime s1 = refreshTime s.
Proof.
  destruct s as [t rs m c so rt]; simpl.
  rewrite Bool.negb_involutive. repeat split; reflexivity.
Qed.

(** C7. In automatic mode [/relayOn] and [/relayOff] leave every global as
    it was and write no pin, and still answer with the redirect; in manual
    mode they set [relayState] to true and to false, write the relay pin
    accordingly, set the status line, and answer with the redirect. *)
Theorem relay_requests (request : AsyncWebServerRequest) (s : state) :
  (manualMode s = false ->
     on_relayOn request s = (s, [redirect "/"])
     /\ on_relayOff request s = (s, [redirect "/"]))
  /\ (manualMode s = true ->
        (fst (on_relayOn request s) =
           set_serialOutput "Manual mode: Relay is ON" (set_relayState true s)
         /\ relayState (fst (on_relayOn request s)) = true
         /\ actuations (snd (on_relayOn request s)) = [digitalWrite RELAY_PIN HIGH]
         /\ response (snd (on_relayOn request s)) = Some (redirect "/"))
        /\ (fst (on_relayOff request s) =
              set_serialOutput "Manual mode: Relay is OFF" (set_relayState false s)
            /\ relayState (fst (on_relayOff request s)) = false
            /\ actuations (snd (on_relayOff request s)) = [digitalWrite RELAY_PIN LOW]
            /\ response (snd (on_relayOff request s)) = Some (redirect "/"))).
Proof.
  unfold on_relayOn, on_relayOff.
  split; intros Hmode; rewrite Hmode; repeat split; reflexivity.
Qed.

(** The state after [/setCritical], by whether the request carries [temp]. *)
Lemma on_setCritical_state (request : AsyncWebServerRequest) (s : state) :
  fst (on_setCritical request s) =
    match getParam request "temp" with
    | Some p =>
        set_serialOutput
          ("Critical Temperature set to: " ++ String_float (toFloat (value p)) ++ " °C")
          (set_criticalTemp (toFloat (value p)) s)
    | None => s
    end.
Proof.
  unfold on_setCritical, hasParam.
  destruct (getParam request "temp") as [p | ]; reflexivity.
Qed.

(** C3 (as the code has it). [/setCritical] with a [temp] parameter
    overwrites [criticalTemp] with [toFloat] of its value, whatever the text
    (18.5 for the text 18.5), and sets the status line; only a request
    without the parameter leaves the state as it was; in both cases the
    answer is the redirect, and no error is reported. *)
Theorem setCritical_effect (request : AsyncWebServerRequest) (s : state) :
  match getParam request "temp" with
  | Some p =>
      criticalTemp (fst (on_setCritical request s)) = toFloat (value p)
      /\ fst (on_setCritical request s) =
           set_serialOutput
             ("Critical Temperature set to: " ++ String_float (toFloat (value p)) ++ " °C")
             (set_criticalTemp (toFloat (value p)) s)
  | None => on_setCritical request s = (s, [redirect "/"])
  end
  /\ response (snd (on_setCritical request s)) = Some (redirect "/")
  /\ criticalTemp (fst (on_setCritical (with_temp "18.5") s)) = float_lit false 185 (-1).
Proof.
  split; [ | split].
  - rewrite on_setCritical_state. unfold on_setCritical, hasParam.
    destruct (getParam request "temp") as [p | ]; [split | ]; reflexivity.
  - unfold on_setCritical, hasParam.
    destruct (getParam request "temp") as [p | ]; reflexivity.
  - rewrite on_setCritical_state, getParam_with_temp. reflexivity.
Qed.


(** ** Runs *)

Lemma run_app (ops ops' : list op) (s : state) :
  run (ops ++ ops') s = run ops' (run ops s).
Proof.
  revert s; induction ops as [ | o ops IH]; intros s; simpl; [reflexivity | apply IH].
Qed.

Lemma run_reachable (ops : list op) (s : state) : reachable s -> reachable (run ops s).
Proof.
  revert s; induction ops as [ | o ops IH]; intros s Hs; simpl; [exact Hs | ].
  apply IH, reachable_step, Hs.
Qed.

Lemma reachable_run (s : state) : reachable s -> exists ops, s = run ops initial.
Proof.
  induction 1 as [ | o s Hs [ops IH]].
  - exists []. reflexivity.
  - exists (ops ++ [o])%list. rewrite run_app, <- IH. reflexivity.
Qed.

(** No handler writes [temperature]; a pass of [loop()] always does. *)
Lemma step_temperature (o : op) (s : state) :
  temperature (fst (step o s)) =
    match o with
    | Tick r => r
    | _ => temperature s
    end.
Proof.
  destruct o as [r | q | q | q | q | q]; simpl.
  - rewrite loop_state. destruct (manualMode s); [ | destruct (isnan r)]; reflexivity.
  - reflexivity.
  - reflexivity.
  - unfold on_relayOn. destruct (manualMode s); reflexivity.
  - unfold on_relayOff. destruct (manualMode s); reflexivity.
  - rewrite on_setCritical_state. destruct (getParam q "temp"); reflexivity.
Qed.

(** C8 (as the code has it). [temperature] holds what the sensor returned in
    the most recent pass of [loop()], a valid reading or the NaN of a failed
    read alike (and its initial value before the first pass): every pass
    overwrites it with the sensor's result, and no handler writes it. *)
Theorem temperature_is_last_reading (ops : list op) (s : state) (r : float) :
  temperature (fst (loop r s)) = r
  /\ temperature (run ops s) =
       match last_reading ops with
       | Some r' => r'
       | None => temperature s
       end.
Proof.
  split; [exact (step_temperature (Tick r) s) | ].
  revert s; induction ops as [ | o ops IH]; intros s; simpl; [reflexivity | ].
  rewrite IH. destruct (last_reading ops) as [r' | ]; [reflexivity | ].
  rewrite step_temperature. destruct o; reflexivity.
Qed.

(** C2 (as the code has it). The relation between output and threshold
    holds after every pass of [loop()], and every step that keeps the policy
    preserves it: the page, [/relayOn], [/relayOff], [/setCritical] without
    [temp], and [/toggleMode] out of automatic mode.  A [/setCritical] with
    [temp] and a [/toggleMode] into automatic mode change the threshold or
    the mode without evaluating the comparison again. *)
Theorem control_invariant_steps :
  (forall (r : float) (s : state), control_invariant (fst (loop r s)))
  /\ (forall (o : op) (s : state),
        keeps_policy o s = true ->
        control_invariant s -> control_invariant (fst (step o s))).
Proof.
  assert (Hloop : forall r s, control_invariant (fst (loop r s))).
  { intros r s. unfold control_invariant. rewrite loop_state.
    destruct (manualMode s) eqn:Hmode; simpl.
    - intros Hauto. rewrite Hmode in Hauto. discriminate Hauto.
    - destruct (isnan r) eqn:Hr; simpl.
      + intros _ Hvalid. rewrite Hr in Hvalid. discriminate Hvalid.
      + intros _ _. reflexivity. }
  split; [exact Hloop | ].
  intros o s Hkeep Hinv.
  destruct o as [r | q | q | q | q | q]; simpl in *.
  - apply Hloop.
  - exact Hinv.
  - unfold control_invariant; simpl. intros Hauto.
    rewrite Hauto in Hkeep. discriminate Hkeep.
  - unfold on_relayOn. destruct (manualMode s) eqn:Hmode; [ | exact Hinv].
    unfold control_invariant; simpl. intros Hauto.
    rewrite Hmode in Hauto. discriminate Hauto.
  - unfold on_relayOff. destruct (manualMode s) eqn:Hmode; [ | exact Hinv].
    unfold control_invariant; simpl. intros Hauto.
    rewrite Hmode in Hauto. discriminate Hauto.
  - rewrite on_setCritical_state. unfold hasParam in Hkeep.
    destruct (getParam q "temp"); [discriminate Hkeep | exact Hinv].
Qed.

(** ** More on runs: what each global depends on *)

Lemma trace_app (ops ops' : list op) (s : state) :
  trace (ops ++ ops') s = (trace ops s ++ trace ops' (run ops s))%list.
Proof.
  revert s; induction ops as [ | o ops IH]; intros s; simpl; [reflexivity | ].
  rewrite IH, app_assoc. reflexivity.
Qed.

(** X1. The page never writes a global: requests to [/] can be struck out of
    any run without changing the state it ends in. *)
Theorem run_without_Root (ops : list op) (s : state) :
  run (filter (fun o => negb (is_Root o)) ops) s = run ops s.
Proof.
  revert s; induction ops as [ | o ops IH]; intros s; [reflexivity | ].
  destruct o; simpl; apply IH.
Qed.

Lemma step_manualMode (o : op) (s : state) :
  manualMode (fst (step o s)) = xorb (is_ToggleMode o) (manualMode s).
Proof.
  destruct o as [r | q | q | q | q | q]; simpl.
  - rewrite loop_state. destruct (manualMode s) eqn:Hmode; [ | destruct (isnan r)];
      simpl; rewrite ?Hmode; reflexivity.
  - reflexivity.
  - reflexivity.
  - unfold on_relayOn. destruct (manualMode s) eqn:Hmode; simpl; rewrite ?Hmode; reflexivity.
  - unfold on_relayOff. destruct (manualMode s) eqn:Hmode; simpl; rewrite ?Hmode; reflexivity.
  - rewrite on_setCritical_state. destruct (getParam q "temp"); reflexivity.
Qed.

(** X2. [manualMode] after any run is its value before, negated once for each
    [/toggleMode] request of the run: no other step writes it. *)
Theorem manualMode_is_toggle_parity (ops : list op) (s : state) :
  manualMode (run ops s) = xorb (toggled ops) (manualMode s).
Proof.
  revert s; induction ops as [ | o ops IH]; intros s; simpl.
  - reflexivity.
  - rewrite IH, step_manualMode.
    destruct (is_ToggleMode o), (toggled ops), (manualMode s); reflexivity.
Qed.

Lemma step_criticalTemp (o : op) (s : state) :
  criticalTemp (fst (step o s)) =
    match o with
    | SetCritical request =>
        match getParam request "temp" with
        | Some p => toFloat (value p)
        | None => criticalTemp s
        end
    | _ => criticalTemp s
    end.
Proof.
  destruct o as [r | q | q | q | q | q]; simpl.
  - rewrite loop_state. destruct (manualMode s); [ | destruct (isnan r)]; reflexivity.
  - reflexivity.
  - reflexivity.
  - unfold on_relayOn. destruct (manualMode s); reflexivity.
  - unfold on_relayOff. destruct (manualMode s); reflexivity.
  - rewrite on_setCritical_state. destruct (getParam q "temp"); reflexivity.
Qed.

(** X3. [criticalTemp] after any run is the parse of [temp] in the last
    [/setCritical] request that carried one, and its value before the run
    when there was none: no other step writes it. *)
Theorem criticalTemp_is_last_setpoint (ops : list op) (s : state) :
  criticalTemp (run ops s) =
    match last_setpoint ops with
    | Some v => toFloat v
    | None => criticalTemp s
    end.
Proof.
  revert s; induction ops as [ | o ops IH]; intros s; simpl; [reflexivity | ].
  rewrite IH. destruct (last_setpoint ops) as [v | ]; [reflexivity | ].
  rewrite step_criticalTemp.
  destruct o as [r | q | q | q | q | q]; try reflexivity.
  destruct (getParam q "temp"); reflexivity.
Qed.

Lemma step_refreshTime (o : op) (s : state) : refreshTime (fst (step o s)) = refreshTime s.
Proof.
  destruct o as [r | q | q | q | q | q]; simpl.
  - rewrite loop_state. destruct (manualMode s); [ | destruct (isnan r)]; reflexivity.
  - reflexivity.
  - reflexivity.
  - unfold on_relayOn. destruct (manualMode s); reflexivity.
  - unfold on_relayOff. destruct (manualMode s); reflexivity.
  - rewrite on_setCritical_state. destruct (getParam q "temp"); reflexivity.
Qed.

Lemma run_refreshTime (ops : list op) (s : state) : refreshTime (run ops s) = refreshTime s.
Proof.
  revert s; induction ops as [ | o ops IH]; intros s; simpl; [reflexivity | ].
  rewrite IH. apply step_refreshTime.
Qed.

(** X4. No step writes [refreshTime]: after any run from the initial state it is
    10, and the page opens with a refresh tag of 10 seconds. *)
Theorem page_refreshes_every_10_seconds (ops : list op) :
  refreshTime (run ops initial) = 10
  /\ String.prefix
       "<html><head><meta charset='UTF-8'><meta http-equiv='refresh' content='10'>"
       (html (run ops initial)) = true.
Proof.
  assert (H : refreshTime (run ops initial) = 10) by apply run_refreshTime.
  split; [exact H | ].
  unfold html. rewrite H. reflexivity.
Qed.

(** ** Passes of [loop()] in a row *)

Lemma flt_nan_r (a : float) : flt a NAN = false.
Proof. destruct a as [s | s | | s m e]; reflexivity. Qed.

(** X5. In automatic mode, after any number of passes of [loop()] with no
    request in between, the relay is as the last valid reading decided:
    failed reads hold the last decision, and with no valid reading the relay
    is as it was. *)
Theorem relay_follows_last_valid_reading (readings : list float) (s : state) :
  manualMode s = false ->
  relayState (run (map Tick readings) s) =
    match last_valid readings with
    | Some r => flt r (criticalTemp s)
    | None => relayState s
    end.
Proof.
  revert s; induction readings as [ | r readings IH]; intros s Hauto; simpl; [reflexivity | ].
  assert (Hstep : fst (loop r s) =
                    if isnan r then set_serialOutput error_message (set_temperature r s)
                    else mkState r (flt r (criticalTemp s)) false (criticalTemp s)
                           (serialOutput (fst (loop r s))) (refreshTime s)).
  { rewrite loop_state, Hauto. destruct (isnan r); reflexivity. }
  rewrite IH; [ | rewrite Hstep; destruct (isnan r); [exact Hauto | reflexivity]].
  rewrite Hstep.
  destruct (last_valid readings) as [r' | ]; destruct (isnan r); reflexivity.
Qed.

(** X7. With a NaN threshold, no pass of [loop()] in automatic mode turns the
    relay on: a valid reading turns it off, a failed read leaves it. *)
Theorem loop_nan_threshold (s : state) (r : float) :
  manualMode s = false ->
  isnan (criticalTemp s) = true ->
  relayState (fst (loop r s)) = (if isnan r then relayState s else false).
Proof.
  intros Hauto Hnan. rewrite loop_state, Hauto, (isnan_true _ Hnan).
  destruct (isnan r); [reflexivity | apply flt_nan_r].
Qed.

Lemma step_relayState_manual (o : op) (s : state) :
  manualMode s = true ->
  relayState (fst (step o s)) =
    match o with
    | RelayOn _ => true
    | RelayOff _ => false
    | _ => relayState s
    end.
Proof.
  intros Hmanual. destruct o as [r | q | q | q | q | q]; simpl.
  - rewrite loop_state, Hmanual. reflexivity.
  - reflexivity.
  - reflexivity.
  - unfold on_relayOn. rewrite Hmanual. reflexivity.
  - unfold on_relayOff. rewrite Hmanual. reflexivity.
  - rewrite on_setCritical_state. destruct (getParam q "temp"); reflexivity.
Qed.

(** X6. In manual mode, after any run without [/toggleMode], the relay is as
    the last [/relayOn] or [/relayOff] request asked, and as it was when
    there was none: passes of [loop()], whatever they read, and the other
    requests do not move it. *)
Theorem relay_follows_last_command (ops : list op) (s : state) :
  manualMode s = true ->
  forallb (fun o => negb (is_ToggleMode o)) ops = true ->
  relayState (run ops s) =
    match last_command ops with
    | Some b => b
    | None => relayState s
    end.
Proof.
  revert s; induction ops as [ | o ops IH]; intros s Hmanual Hops; simpl; [reflexivity | ].
  simpl in Hops. apply andb_prop in Hops. destruct Hops as [Ho Hops].
  apply negb_true_iff in Ho.
  rewrite IH; [ | rewrite step_manualMode, Ho; exact Hmanual | exact Hops].
  rewrite (step_relayState_manual o s Hmanual).
  destruct (last_command ops); [reflexivity | destruct o; reflexivity].
Qed.

(** ** Steps twice, answers, and the status line *)

Lemma on_setCritical_events (request : AsyncWebServerRequest) (s : state) :
  snd (on_setCritical request s) =
    match getParam request "temp" with
    | Some p =>
        [Serial_println
           ("Critical Temperature set to: " ++ String_float (toFloat (value p)) ++ " °C");
         redirect "/"]
    | None => [redirect "/"]
    end.
Proof.
  unfold on_setCritical, hasParam.
  destruct (getParam request "temp") as [p | ]; reflexivity.
Qed.

(** X8. Every step but [/toggleMode] is idempotent: taken a second time from
    the state it produced, with the same reading or request, it produces the
    same state and the same effects again. *)
Theorem step_idempotent (o : op) (s : state) :
  is_ToggleMode o = false ->
  step o (fst (step o s)) = step o s.
Proof.
  intros Hnot. apply injective_projections;
    destruct o as [r | q | q | q | q | q]; try discriminate Hnot; simpl.
  - rewrite !loop_state. destruct s as [t rs [ | ] c so rt]; simpl; [reflexivity | ].
    destruct (isnan r); reflexivity.
  - reflexivity.
  - unfold on_relayOn. destruct s as [t rs [ | ] c so rt]; reflexivity.
  - unfold on_relayOff. destruct s as [t rs [ | ] c so rt]; reflexivity.
  - rewrite !on_setCritical_state. destruct (getParam q "temp"); reflexivity.
  - rewrite !loop_events, loop_state. destruct s as [t rs [ | ] c so rt]; simpl; [reflexivity | ].
    destruct (isnan r); reflexivity.
  - reflexivity.
  - unfold on_relayOn. destruct s as [t rs [ | ] c so rt]; reflexivity.
  - unfold on_relayOff. destruct s as [t rs [ | ] c so rt]; reflexivity.
  - rewrite !on_setCritical_events. destruct (getParam q "temp"); reflexivity.
Qed.

(** X9. Every request is answered exactly once, by the last effect of its
    handler: the page by [send], the four other routes by a redirect to [/],
    whether or not they changed anything.  A pass of [loop()] answers nothing
    and ends with the delay of two seconds. *)
Theorem every_request_is_answered_once (o : op) (s : state) :
  filter is_response (snd (step o s)) =
    match o with
    | Tick _ => []
    | Root _ => [send 200 "text/html" (html s)]
    | _ => [redirect "/"]
    end
  /\ last (snd (step o s)) (delay 0) =
       match o with
       | Tick _ => delay 2000
       | Root _ => send 200 "text/html" (html s)
       | _ => redirect "/"
       end.
Proof.
  destruct o as [r | q | q | q | q | q]; simpl.
  - rewrite loop_events. destruct (manualMode s); [ | destruct (isnan r)]; split; reflexivity.
  - split; reflexivity.
  - split; reflexivity.
  - unfold on_relayOn. destruct (manualMode s); split; reflexivity.
  - unfold on_relayOff. destruct (manualMode s); split; reflexivity.
  - rewrite on_setCritical_events. destruct (getParam q "temp"); split; reflexivity.
Qed.

Lemma step_same_but_status (o : op) (s s' : state) :
  same_but_status s s' ->
  snd (step o s) = snd (step o s')
  /\ same_but_status (fst (step o s)) (fst (step o s')).
Proof.
  destruct s as [t rs m c so rt], s' as [t' rs' m' c' so' rt'].
  unfold same_but_status; simpl. intros H.
  injection H as <- <- <- <- <-.
  destruct o as [r | q | q | q | q | q]; simpl.
  - rewrite !loop_events, !loop_state; simpl.
    destruct m; [ | destruct (isnan r)]; split; reflexivity.
  - split; reflexivity.
  - split; reflexivity.
  - unfold on_relayOn; simpl. destruct m; split; reflexivity.
  - unfold on_relayOff; simpl. destruct m; split; reflexivity.
  - rewrite !on_setCritical_events, !on_setCritical_state.
    destruct (getParam q "temp"); split; reflexivity.
Qed.

Lemma run_same_but_status (ops : list op) (s s' : state) :
  same_but_status s s' ->
  trace ops s = trace ops s' /\ same_but_status (run ops s) (run ops s').
Proof.
  revert s s'; induction ops as [ | o ops IH]; intros s s' Hsame; simpl.
  - split; [reflexivity | exact Hsame].
  - destruct (step_same_but_status o s s' Hsame) as [Hevents Hnext].
    destruct (IH _ _ Hnext) as [Htrace Hrun].
    rewrite Hevents, Htrace. split; [reflexivity | exact Hrun].
Qed.

(** X10. The status line is only ever written: whatever it holds, any run has
    the same effects (the pages sent, the serial lines, the pin writes) and
    ends in the same state but for the status line itself. *)
Theorem status_line_is_write_only (ops : list op) (s : state) (v : string) :
  trace ops (set_serialOutput v s) = trace ops s
  /\ same_but_status (run ops (set_serialOutput v s)) (run ops s).
Proof.
  apply run_same_but_status. destruct s; reflexivity.
Qed.

(** ** The relay pin *)

Lemma pin_after_app (pin : Z) (level : bool) (evs evs' : list event) :
  pin_after pin level (evs ++ evs') = pin_after pin (pin_after pin level evs) evs'.
Proof.
  revert level; induction evs as [ | e evs IH]; intros level; simpl; [reflexivity | ].
  destruct e; apply IH.
Qed.

Lemma step_pin (o : op) (s : state) :
  pin_after RELAY_PIN (relayState s) (snd (step o s)) = relayState (fst (step o s))
  /\ Forall relay_pin_only (snd (step o s)).
Proof.
  destruct o as [r | q | q | q | q | q]; simpl.
  - rewrite loop_events, loop_state.
    destruct (manualMode s); [ | destruct (isnan r)];
      (split; [reflexivity | repeat constructor]).
  - split; [reflexivity | repeat constructor].
  - split; [reflexivity | repeat constructor].
  - unfold on_relayOn. destruct (manualMode s); (split; [reflexivity | repeat constructor]).
  - unfold on_relayOff. destruct (manualMode s); (split; [reflexivity | repeat constructor]).
  - rewrite on_setCritical_events, on_setCritical_state.
    destruct (getParam q "temp"); (split; [reflexivity | repeat constructor]).
Qed.

Lemma effects_app (evs evs' : list boot_event) :
  effects (evs ++ evs') = (effects evs ++ effects evs')%list.
Proof.
  induction evs as [ | b evs IH]; simpl; [reflexivity | ].
  destruct b; simpl; rewrite IH; reflexivity.
Qed.

Lemma connecting_writes_no_pin (statuses : list wl_status_t) :
  actuations (effects (fst (connecting statuses))) = [].
Proof.
  induction statuses as [ | status statuses IH]; simpl; [reflexivity | ].
  destruct (not_connected status); [ | reflexivity].
  destruct (connecting statuses) as [evs connected]; simpl in *. exact IH.
Qed.

Lemma pin_after_actuations (pin : Z) (level : bool) (evs : list event) :
  pin_after pin level (actuations evs) = pin_after pin level evs.
Proof.
  revert level; induction evs as [ | e evs IH]; intros level; simpl; [reflexivity | ].
  destruct e; simpl; apply IH.
Qed.

Lemma setup_actuations (ssid password ip : string) (statuses : list wl_status_t) :
  actuations (effects (fst (setup ssid password ip statuses)))
  = [digitalWrite RELAY_PIN LOW].
Proof.
  unfold setup. pose proof (connecting_writes_no_pin statuses) as Hnone.
  destruct (connecting statuses) as [evs connected]; simpl in Hnone.
  unfold actuations in *.
  destruct connected; simpl; rewrite ?effects_app, ?filter_app, Hnone; reflexivity.
Qed.

Lemma setup_pin (level : bool) (ssid password ip : string) (statuses : list wl_status_t) :
  pin_after RELAY_PIN level (effects (fst (setup ssid password ip statuses))) = LOW.
Proof.
  rewrite <- pin_after_actuations, setup_actuations. reflexivity.
Qed.

(** The two parts of a pass, one after the other with nothing in between,
    are the pass. *)
Lemma loop_cut (reading : float) (s : state) :
  loop reading s =
    match loop_to_relayState reading s with
    | Whole result => result
    | Cut s1 evs tempString on =>
        (fst (loop_from_relayState tempString on s1),
         (evs ++ snd (loop_from_relayState tempString on s1))%list)
    end.
Proof.
  unfold loop, loop_to_relayState, loop_from_relayState.
  destruct s as [t rs [ | ] c so rt]; simpl; [reflexivity | ].
  destruct (isnan reading); [reflexivity | ].
  destruct (flt reading c); reflexivity.
Qed.

Lemma connecting_relay_pin_only (statuses : list wl_status_t) :
  Forall relay_pin_only (effects (fst (connecting statuses))).
Proof.
  induction statuses as [ | status statuses IH]; simpl; [constructor | ].
  destruct (not_connected status); [ | constructor].
  destruct (connecting statuses) as [evs connected]; simpl in *.
  repeat constructor. exact IH.
Qed.

Lemma setup_relay_pin_only (ssid password ip : string) (statuses : list wl_status_t) :
  Forall relay_pin_only (effects (fst (setup ssid password ip statuses))).
Proof.
  unfold setup. pose proof (connecting_relay_pin_only statuses) as Hwait.
  destruct (connecting statuses) as [evs connected]; simpl in Hwait.
  destruct connected; simpl; repeat constructor;
    rewrite ?effects_app; try apply Forall_app; try split; try exact Hwait;
    simpl; repeat constructor.
Qed.

(** X11. Every step, taken whole, writes no pin but the relay's and writes
    it with the value it assigns to [relayState]: from a state in which the
    pin holds [relayState], each pass of [loop()] and each handler ends in
    such a state.  So does [setup()], which drives the pin low, the initial
    [relayState], and writes no other pin.  Hence over [setup()] and any
    sequence of whole steps after it, whatever the level at power-up, only
    the relay pin is written and it ends holding [relayState].  (A request
    served inside a pass is another matter: see
    [request_inside_a_pass_breaks_the_mirror].) *)
Theorem relay_pin_mirrors_relayState (ops : list op) (s : state) (level : bool)
    (ssid password ip : string) (statuses : list wl_status_t) :
  (forall (o : op) (s' : state),
     Forall relay_pin_only (snd (step o s'))
     /\ pin_after RELAY_PIN (relayState s') (snd (step o s')) = relayState (fst (step o s')))
  /\ Forall relay_pin_only (trace ops s)
  /\ pin_after RELAY_PIN (relayState s) (trace ops s) = relayState (run ops s)
  /\ Forall relay_pin_only
       (effects (fst (setup ssid password ip statuses)) ++ trace ops initial)
  /\ pin_after RELAY_PIN level
       (effects (fst (setup ssid password ip statuses)) ++ trace ops initial)
     = relayState (run ops initial).
Proof.
  assert (Hrun : forall s', Forall relay_pin_only (trace ops s')
                            /\ pin_after RELAY_PIN (relayState s') (trace ops s')
                               = relayState (run ops s')).
  { induction ops as [ | o ops IH]; intros s'; simpl.
    - split; [constructor | reflexivity].
    - destruct (step_pin o s') as [Hpin Honly].
      destruct (IH (fst (step o s'))) as [Honly' Hpin'].
      split; [apply Forall_app; split; assumption | ].
      rewrite pin_after_app, Hpin. exact Hpin'. }
  destruct (Hrun s) as [Honly Hpin].
  destruct (Hrun initial) as [Honly0 Hpin0].
  split; [intros o s'; destruct (step_pin o s') as [H1 H2]; split; assumption | ].
  split; [exact Honly | split; [exact Hpin | split]].
  - apply Forall_app. split; [apply setup_relay_pin_only | exact Honly0].
  - rewrite pin_after_app, setup_pin. exact Hpin0.
Qed.

(** ** [setup()] *)

Lemma connecting_spec (statuses : list wl_status_t) :
  snd (connecting statuses) = existsb (fun status => negb (not_connected status)) statuses
  /\ filter is_delay (effects (fst (connecting statuses)))
     = repeat (delay 1000) (polls_before_connected statuses)
  /\ filter is_server_event (fst (connecting statuses)) = [].
Proof.
  induction statuses as [ | status statuses (IHc & IHd & IHs)]; simpl.
  - repeat split; reflexivity.
  - destruct (not_connected status); simpl; [ | repeat split; reflexivity].
    destruct (connecting statuses) as [evs connected]; simpl in *.
    rewrite IHd. repeat split; [exact IHc | exact IHs].
Qed.

(** X12. [setup()] returns exactly when a poll of [WiFi.status()] reports
    [WL_CONNECTED]; it waits one second for each poll before that one; and it
    registers the five routes and starts the server only once connected:
    while it waits, no route is registered. *)
Theorem setup_waits_for_connection (ssid password ip : string)
    (statuses : list wl_status_t) :
  snd (setup ssid password ip statuses)
  = existsb (fun status => negb (not_connected status)) statuses
  /\ filter is_delay (effects (fst (setup ssid password ip statuses)))
     = repeat (delay 1000) (polls_before_connected statuses)
  /\ filter is_server_event (fst (setup ssid password ip statuses))
     = if snd (setup ssid password ip statuses)
       then [server_on "/"; server_on "/toggleMode"; server_on "/relayOn";
             server_on "/relayOff"; server_on "/setCritical"; server_begin]
       else [].
Proof.
  unfold setup. destruct (connecting_spec statuses) as (Hc & Hd & Hs).
  destruct (connecting statuses) as [evs connected]; simpl in Hc, Hd, Hs.
  destruct connected; simpl;
    rewrite ?effects_app, ?filter_app, Hd, Hs, ?app_nil_r;
    repeat split; try exact Hc; reflexivity.
Qed.

End Firmware.

(** * Executions

    The statements above, applied to the sketch started from its initial
    state, with floats rendered by [two_decimals]. *)

(** C1 on the initial state: a sample of 22.0 is below the threshold of
    23.80 and turns the relay on; a sample equal to the threshold leaves it
    off. *)
Lemma loop_automatic_threshold_witness :
  manualMode initial = false
  /\ isnan (float_lit false 220 (-1)) = false
  /\ relayState (fst (loop two_decimals (float_lit false 220 (-1)) initial)) = true
  /\ relayState (fst (loop two_decimals (criticalTemp initial) initial)) = false.
Proof.
  split; [reflexivity | split; [reflexivity | split]].
  - rewrite (proj1 (loop_automatic_threshold two_decimals initial (float_lit false 220 (-1))
                      eq_refl eq_refl)).
    reflexivity.
  - apply (loop_automatic_threshold two_decimals initial (criticalTemp initial));
      reflexivity.
Defined.

(** C2: after a sample of 22.0 the relay is on; [/setCritical?temp=10] then
    lowers the threshold to 10.0 and leaves the relay on, in automatic mode,
    with a valid temperature that is not below the threshold. *)
Lemma control_invariant_broken_by_setCritical :
  let s :=
    run two_decimals
      [Tick (float_lit false 220 (-1)); SetCritical (with_temp "10")] initial in
  reachable two_decimals s
  /\ manualMode s = false
  /\ isnan (temperature s) = false
  /\ relayState s = true
  /\ flt (temperature s) (criticalTemp s) = false
  /\ ~ control_invariant s.
Proof.
  cbv zeta.
  split; [apply run_reachable, reachable_initial | ].
  repeat (split; [reflexivity | ]).
  intros Hinv. specialize (Hinv eq_refl eq_refl).
  destruct Hinv as [Hon _]. specialize (Hon eq_refl). discriminate Hon.
Qed.

(** The other way to break the relation: the relay is switched on by hand
    at 25.0 degrees, and [/toggleMode] returns to automatic mode with the
    relay still on. *)
Example control_invariant_broken_by_toggleMode :
  let s :=
    run two_decimals
      [ToggleMode no_params; RelayOn no_params; Tick (float_lit false 250 (-1));
       ToggleMode no_params] initial in
  manualMode s = false
  /\ isnan (temperature s) = false
  /\ relayState s = true
  /\ flt (temperature s) (criticalTemp s) = false.
Proof. cbv zeta. repeat split; reflexivity. Qed.

(** C2 as the code has it, after a sample of 22.0: [/relayOn] keeps the
    policy and preserves the relation that the pass of [loop()] set up. *)
Lemma control_invariant_steps_witness :
  let s := fst (loop two_decimals (float_lit false 220 (-1)) initial) in
  keeps_policy (RelayOn no_params) s = true
  /\ (relayState (fst (step two_decimals (RelayOn no_params) s)) = true
      <-> flt (temperature (fst (step two_decimals (RelayOn no_params) s)))
            (criticalTemp (fst (step two_decimals (RelayOn no_params) s))) = true).
Proof.
  cbv zeta. split; [reflexivity | ].
  apply (proj2 (control_invariant_steps two_decimals) (RelayOn no_params)
           (fst (loop two_decimals (float_lit false 220 (-1)) initial))).
  - reflexivity.
  - apply (proj1 (control_invariant_steps two_decimals)).
  - reflexivity.
  - reflexivity.
Defined.

(** C3: [/setCritical?temp=abc] on the initial state is not a no-op: the
    threshold goes from 23.80 to 0.0 and the status line is rewritten. *)
Lemma setCritical_abc_overwrites :
  criticalTemp initial = S754_finite false 12478054 (-19)
  /\ criticalTemp (fst (on_setCritical two_decimals (with_temp "abc") initial)) = fzero
  /\ serialOutput (fst (on_setCritical two_decimals (with_temp "abc") initial))
     = "Critical Temperature set to: 0.00 °C"
  /\ fst (on_setCritical two_decimals (with_temp "abc") initial) <> initial.
Proof.
  repeat (split; [reflexivity | ]).
  intros H. apply (f_equal criticalTemp) in H. discriminate H.
Qed.

(** C4: in manual mode, with 22.0 read before, a failed read changes
    [temperature] to NaN. *)
Lemma loop_manual_failed_read_overwrites :
  let s :=
    run two_decimals [ToggleMode no_params; Tick (float_lit false 220 (-1))] initial in
  reachable two_decimals s
  /\ manualMode s = true
  /\ temperature s = float_lit false 220 (-1)
  /\ isnan NAN = true
  /\ temperature (fst (loop two_decimals NAN s)) = NAN
  /\ temperature (fst (loop two_decimals NAN s)) <> temperature s.
Proof.
  cbv zeta.
  split; [apply run_reachable, reachable_initial | ].
  repeat (split; [reflexivity | ]).
  intros H. discriminate H.
Qed.

(** C4 as the code has it, in manual mode with the relay switched on by
    hand: a failed read changes [temperature] alone. *)
Lemma loop_manual_witness :
  let s := run two_decimals [ToggleMode no_params; RelayOn no_params] initial in
  manualMode s = true
  /\ relayState (fst (loop two_decimals NAN s)) = true
  /\ fst (loop two_decimals NAN s) = set_temperature NAN s
  /\ snd (loop two_decimals NAN s) = [delay 2000].
Proof.
  cbv zeta. split; [reflexivity | ].
  destruct (loop_manual two_decimals
              (run two_decimals [ToggleMode no_params; RelayOn no_params] initial)
              NAN eq_refl) as (Hrelay & Hstate & _ & _ & Hevents).
  split; [rewrite Hrelay; reflexivity | split; [exact Hstate | exact Hevents]].
Defined.

(** C5: in manual mode a failed read leaves the status line as the last
    manual command wrote it; it is not the error message. *)
Lemma loop_manual_failed_read_keeps_status :
  let s := run two_decimals [ToggleMode no_params; RelayOn no_params] initial in
  reachable two_decimals s
  /\ manualMode s = true
  /\ isnan NAN = true
  /\ serialOutput (fst (loop two_decimals NAN s)) = "Manual mode: Relay is ON"
  /\ serialOutput (fst (loop two_decimals NAN s)) <> error_message.
Proof.
  cbv zeta.
  split; [apply run_reachable, reachable_initial | ].
  repeat (split; [reflexivity | ]).
  intros H. discriminate H.
Qed.

(** C5 as the code has it, on the initial state (automatic mode): the
    failed read sets the error message, keeps relay, mode and threshold, and
    the next pass, reading 22.0, ends as if the failed one had not run. *)
Lemma loop_failed_read_witness :
  isnan NAN = true
  /\ serialOutput (fst (loop two_decimals NAN initial)) = error_message
  /\ relayState (fst (loop two_decimals NAN initial)) = false
  /\ actuations (snd (loop two_decimals NAN initial)) = []
  /\ loop two_decimals (float_lit false 220 (-1)) (fst (loop two_decimals NAN initial))
     = loop two_decimals (float_lit false 220 (-1)) initial.
Proof.
  split; [reflexivity | ].
  destruct (loop_failed_read two_decimals initial NAN (float_lit false 220 (-1)) eq_refl)
    as (Hstatus & Hrelay & _ & _ & _ & _ & Hpins & Hnext).
  split; [exact Hstatus | split; [exact Hrelay | split; [exact Hpins | exact Hnext]]].
Defined.

(** C7 in both modes: on the initial state (automatic) the two requests
    change nothing; after [/toggleMode] (manual) they switch the relay. *)
Lemma relay_requests_witness :
  (manualMode initial = false
   /\ on_relayOn no_params initial = (initial, [redirect "/"])
   /\ on_relayOff no_params initial = (initial, [redirect "/"]))
  /\ (manualMode (fst (on_toggleMode no_params initial)) = true
      /\ relayState (fst (on_relayOn no_params (fst (on_toggleMode no_params initial)))) = true
      /\ actuations (snd (on_relayOn no_params (fst (on_toggleMode no_params initial))))
         = [digitalWrite RELAY_PIN HIGH]
      /\ relayState (fst (on_relayOff no_params (fst (on_toggleMode no_params initial)))) = false).
Proof.
  split.
  - split; [reflexivity | ].
    apply (proj1 (relay_requests no_params initial)). reflexivity.
  - split; [reflexivity | ].
    destruct (proj2 (relay_requests no_params (fst (on_toggleMode no_params initial))) eq_refl)
      as ((_ & Hon & Hpin & _) & (_ & Hoff & _ & _)).
    split; [exact Hon | split; [exact Hpin | exact Hoff]].
Defined.

(** C8: after a read of 22.0 and a failed read, [temperature] is NaN, not
    the last successful reading. *)
Lemma temperature_after_failed_read :
  let s := run two_decimals [Tick (float_lit false 220 (-1)); Tick NAN] initial in
  reachable two_decimals s
  /\ temperature s = NAN
  /\ isnan (temperature s) = true
  /\ temperature s <> float_lit false 220 (-1).
Proof.
  cbv zeta.
  split; [apply run_reachable, reachable_initial | ].
  repeat (split; [reflexivity | ]).
  intros H. discriminate H.
Qed.



(** ** Two runs of the sketch *)

(** A sample of 22.0 turns the relay on and one of 25.0 turns it off; once in
    manual mode with the relay switched on by hand, a sample of 30.0 leaves it
    on. *)
Example run_threshold_then_manual :
  relayState (run two_decimals [Tick (float_lit false 220 (-1))] initial) = true
  /\ relayState
       (run two_decimals
          [Tick (float_lit false 220 (-1)); Tick (float_lit false 250 (-1))] initial)
     = false
  /\ relayState
       (run two_decimals
          [Tick (float_lit false 220 (-1)); Tick (float_lit false 250 (-1));
           ToggleMode no_params; RelayOn no_params; Tick (float_lit false 300 (-1))]
          initial)
     = true.
Proof. repeat split; reflexivity. Qed.

(** Three failed reads in a row after a sample of 22.0: relay and threshold
    stay as the sample left them, and the status line is the error message
    each time. *)
Example run_three_failed_reads :
  forall n, In n [1; 2; 3]%nat ->
    let s :=
      run two_decimals (Tick (float_lit false 220 (-1)) :: repeat (Tick NAN) n) initial in
    relayState s = true
    /\ criticalTemp s = criticalTemp initial
    /\ serialOutput s = error_message.
Proof.
  intros n [<- | [<- | [<- | []]]]; cbv zeta; repeat split; reflexivity.
Qed.

(** ** The statements about runs, on runs from the initial state *)

(** After a sample of 22.0 and two failed reads the relay is still on, as
    22.0 decided. *)
Lemma relay_follows_last_valid_reading_witness :
  manualMode initial = false
  /\ last_valid [float_lit false 220 (-1); NAN; NAN] = Some (float_lit false 220 (-1))
  /\ relayState
       (run two_decimals (map Tick [float_lit false 220 (-1); NAN; NAN]) initial)
     = true.
Proof.
  split; [reflexivity | split; [reflexivity | ]].
  rewrite (relay_follows_last_valid_reading two_decimals
             [float_lit false 220 (-1); NAN; NAN] initial eq_refl).
  reflexivity.
Defined.

(** In manual mode, [/relayOn] followed by a sample of 30.0, a failed read
    and a new threshold leaves the relay on. *)
Lemma relay_follows_last_command_witness :
  manualMode (fst (on_toggleMode no_params initial)) = true
  /\ relayState
       (run two_decimals
          [RelayOff no_params; RelayOn no_params; Tick (float_lit false 300 (-1));
           Tick NAN; SetCritical (with_temp "40")]
          (fst (on_toggleMode no_params initial)))
     = true.
Proof.
  split; [reflexivity | ].
  rewrite (relay_follows_last_command two_decimals
             [RelayOff no_params; RelayOn no_params; Tick (float_lit false 300 (-1));
              Tick NAN; SetCritical (with_temp "40")]
             (fst (on_toggleMode no_params initial)) eq_refl eq_refl).
  reflexivity.
Defined.

(** [/setCritical?temp=nan] makes the threshold NaN; a sample of 22.0, which
    turned the relay on under the threshold of 23.80, then turns it off. *)
Lemma loop_nan_threshold_witness :
  let s := fst (on_setCritical two_decimals (with_temp "nan") initial) in
  manualMode s = false
  /\ isnan (criticalTemp s) = true
  /\ relayState (fst (loop two_decimals (float_lit false 220 (-1)) initial)) = true
  /\ relayState (fst (loop two_decimals (float_lit false 220 (-1)) s)) = false.
Proof.
  cbv zeta. split; [reflexivity | split; [reflexivity | split; [reflexivity | ]]].
  rewrite (loop_nan_threshold two_decimals
             (fst (on_setCritical two_decimals (with_temp "nan") initial))
             (float_lit false 220 (-1)) eq_refl eq_refl).
  reflexivity.
Defined.

(** A second sample of 22.0, and a second [/setCritical?temp=18.5], repeat
    the state and the effects of the first. *)
Lemma step_idempotent_witness :
  is_ToggleMode (Tick (float_lit false 220 (-1))) = false
  /\ step two_decimals (Tick (float_lit false 220 (-1)))
       (fst (step two_decimals (Tick (float_lit false 220 (-1))) initial))
     = step two_decimals (Tick (float_lit false 220 (-1))) initial
  /\ is_ToggleMode (SetCritical (with_temp "18.5")) = false
  /\ step two_decimals (SetCritical (with_temp "18.5"))
       (fst (step two_decimals (SetCritical (with_temp "18.5")) initial))
     = step two_decimals (SetCritical (with_temp "18.5")) initial.
Proof.
  split; [reflexivity | split; [ | split; [reflexivity | ]]].
  - apply (step_idempotent two_decimals (Tick (float_lit false 220 (-1))) initial).
    reflexivity.
  - apply (step_idempotent two_decimals (SetCritical (with_temp "18.5")) initial).
    reflexivity.
Defined.

(** [/toggleMode] is the step that is not idempotent: a second request
    undoes the first. *)
Example toggleMode_not_idempotent :
  fst (step two_decimals (ToggleMode no_params)
         (fst (step two_decimals (ToggleMode no_params) initial)))
  <> fst (step two_decimals (ToggleMode no_params) initial).
Proof. intros H. apply (f_equal manualMode) in H. discriminate H. Qed.

(** [setup()] with three polls before the connection: it has returned, after
    three delays of a second, and the server is started last. *)
Example setup_after_three_polls :
  let boot :=
    setup "ssid" "password" "192.168.1.20"
      [WL_IDLE_STATUS; WL_DISCONNECTED; WL_DISCONNECTED; WL_CONNECTED] in
  snd boot = true
  /\ filter is_delay (effects (fst boot)) = [delay 1000; delay 1000; delay 1000]
  /\ last (fst boot) dht_begin = server_begin
  /\ actuations (effects (fst boot)) = [digitalWrite RELAY_PIN LOW].
Proof. cbv zeta. repeat split; reflexivity. Qed.

(** [setup()] on a network that never connects: it is still waiting, and no
    route is registered. *)
Example setup_never_connected :
  let boot := setup "ssid" "password" "192.168.1.20" (repeat WL_DISCONNECTED 5) in
  snd boot = false
  /\ filter is_server_event (fst boot) = []
  /\ List.length (filter is_delay (effects (fst boot))) = 5%nat.
Proof. cbv zeta. repeat split; reflexivity. Qed.

(** A request inside a pass.  The sketch has no lock, and the web server
    serves requests on its own task.  A sample of 22.0 in automatic mode
    assigns [relayState = true] (line 195); if [/toggleMode] and [/relayOff]
    are served before the pass goes on, [relayState] is false and the mode
    manual when line 197 writes the pin high: the pass ends with the pin
    high and [relayState] false, and in manual mode no later pass repairs
    it. *)
Example request_inside_a_pass_breaks_the_mirror :
  exists (s1 : state) (evs : list event) (tempString : string),
    loop_to_relayState two_decimals (float_lit false 220 (-1)) initial
    = Cut s1 evs tempString true
    /\ (let requests := [ToggleMode no_params; RelayOff no_params] in
        let final :=
          loop_from_relayState tempString true (run two_decimals requests s1) in
        relayState (fst final) = false
        /\ manualMode (fst final) = true
        /\ pin_after RELAY_PIN LOW
             (evs ++ trace two_decimals requests s1 ++ snd final)%list
           = HIGH).
Proof.
  eexists. eexists. eexists. split; [reflexivity | ].
  cbv zeta. repeat split; reflexivity.
Qed.
